(** * rei-tracer: the [vec3] and [ray] value types

    A shallow embedding of [include/vec3.hpp] and [include/ray.hpp].

    - A C++ [double] is an IEEE 754 binary64 value: the kernel's primitive
      [float], whose operations round to nearest, ties to even, and are
      specified bit for bit by [SpecFloat].  Every arithmetic operator of
      the source is rounded on its own (no fused multiply-add), and all
      NaNs are one value (payloads and the sign of a NaN are not modelled).
    - [std::array<double, 3>] is a record of three components; its
      unchecked [operator[]] is partial, and an access outside the storage
      is the outcome [Undefined].
    - A member function takes the state of its receiver and returns its
      result; the calls of the public interface are gathered in [vec3_call],
      which also gives the receiver's state after the call.
    - A C++ exception is the outcome [Throw]. *)

From Stdlib Require Import ZArith Lia Bool String List.
From Stdlib Require Import Floats.
Import ListNotations.

Local Open Scope Z_scope.

(** ** Outcomes of a call *)

(** The exceptions of [<stdexcept>] the library throws; [what] is the
    message given to the constructor. *)
Inductive exn : Type :=
| invalid_argument (what : string).

Inductive outcome (A : Type) : Type :=
| Ok (a : A)
| Throw (e : exn)
| Undefined.

Arguments Ok {A} a.
Arguments Throw {A} e.
Arguments Undefined {A}.

Definition bind {A B : Type} (m : outcome A) (k : A -> outcome B) : outcome B :=
  match m with
  | Ok a => k a
  | Throw e => Throw e
  | Undefined => Undefined
  end.

Notation "x <- m ;; k" := (bind m (fun x => k))
  (at level 61, m at next level, right associativity).

Definition throws {A : Type} (m : outcome A) : bool :=
  match m with Throw _ => true | _ => false end.

Definition defined {A : Type} (m : outcome A) : bool :=
  match m with Undefined => false | _ => true end.

(** ** Scalars *)

Definition double : Type := float.

Bind Scope float_scope with double.

(** An [unsigned int] parameter: 32 bits.  A value of another integer
    type is converted where the call is made, before the function runs. *)
Definition UINT_MAX : Z := 4294967295.

Definition is_uint (i : Z) : Prop := 0 <= i <= UINT_MAX.

(** ** [std::array<double, 3>] *)

Record array3 : Type := mk_array3 { a0 : double; a1 : double; a2 : double }.

(** The element an in-range subscript designates. *)
Inductive slot : Type := slot0 | slot1 | slot2.

(** [std::array::operator[]]: no bounds check, the behaviour is undefined
    for a position that is not less than the size. *)
Definition subscript (n : Z) : outcome slot :=
  match n with
  | 0 => Ok slot0
  | 1 => Ok slot1
  | 2 => Ok slot2
  | _ => Undefined
  end.

Definition load (a : array3) (s : slot) : double :=
  match s with
  | slot0 => a0 a
  | slot1 => a1 a
  | slot2 => a2 a
  end.

Definition store (a : array3) (s : slot) (x : double) : array3 :=
  match s with
  | slot0 => mk_array3 x (a1 a) (a2 a)
  | slot1 => mk_array3 (a0 a) x (a2 a)
  | slot2 => mk_array3 (a0 a) (a1 a) x
  end.

(** ** [class vec3] *)

Record vec3 : Type := mk_vec3 { e : array3 }.

(** [vec3()] *)
Definition vec3_zero : vec3 := mk_vec3 (mk_array3 0 0 0).

(** [vec3(x, y, z)] *)
Definition vec3_of (x y z : double) : vec3 := mk_vec3 (mk_array3 x y z).

(** Accessors. *)
Definition x (this : vec3) : double := a0 (e this).
Definition y (this : vec3) : double := a1 (e this).
Definition z (this : vec3) : double := a2 (e this).

(** Mutators: the receiver after the call. *)
Definition newX (this : vec3) (x : double) : vec3 := mk_vec3 (store (e this) slot0 x).
Definition newY (this : vec3) (y : double) : vec3 := mk_vec3 (store (e this) slot1 y).
Definition newZ (this : vec3) (z : double) : vec3 := mk_vec3 (store (e this) slot2 z).

(** [vec3 operator-() const] *)
Definition op_neg (this : vec3) : vec3 :=
  vec3_of (- a0 (e this))%float (- a1 (e this))%float (- a2 (e this))%float.

Definition index_what : string :=
  "Index out of bounds: vector index must be 0, 1, or 2!".

Definition index_mut_what : string :=
  "Indexing out of bounds: vector index must be 0, 1, or 2!".

(** [double operator[](unsigned int i) const] *)
Definition op_index (this : vec3) (i : Z) : outcome double :=
  if i >? 2 then Throw (invalid_argument index_what)
  else s <- subscript i ;; Ok (load (e this) s).

(** [double& operator[](unsigned int i)]: the reference it returns is the
    element it designates. *)
Definition op_index_mut (this : vec3) (i : Z) : outcome slot :=
  if i >? 2 then Throw (invalid_argument index_mut_what)
  else subscript i.

(** [v[i] = a]: an assignment through the reference; the receiver after it. *)
Definition index_assign (this : vec3) (i : Z) (a : double) : outcome vec3 :=
  s <- op_index_mut this i ;; Ok (mk_vec3 (store (e this) s a)).

(** Compound assignments: the receiver after the call, which is also what
    the returned reference [*this] designates. *)
Definition op_add_assign (this v : vec3) : vec3 :=
  mk_vec3 (mk_array3 (a0 (e this) + x v)%float
                     (a1 (e this) + y v)%float
                     (a2 (e this) + z v)%float).

Definition op_mul_assign (this : vec3) (t : double) : vec3 :=
  mk_vec3 (mk_array3 (a0 (e this) * t)%float
                     (a1 (e this) * t)%float
                     (a2 (e this) * t)%float).

Definition op_div_assign (this : vec3) (t : double) : vec3 :=
  op_mul_assign this (1 / t)%float.

(** Binary operators. *)
Definition op_add (this v : vec3) : vec3 :=
  vec3_of (x this + x v)%float (y this + y v)%float (z this + z v)%float.

Definition op_sub (this v : vec3) : vec3 :=
  vec3_of (x this - x v)%float (y this - y v)%float (z this - z v)%float.

Definition op_mul (this v : vec3) : vec3 :=
  vec3_of (x this * x v)%float (y this * y v)%float (z this * z v)%float.

Definition op_div (this : vec3) (t : double) : vec3 :=
  vec3_of (x this / t)%float (y this / t)%float (z this / t)%float.

Definition dot (this v : vec3) : double :=
  ((x this * x v) + (y this * y v) + (z this * z v))%float.

Definition cross (this v : vec3) : vec3 :=
  vec3_of ((y this * z v) - (z this * y v))%float
          ((z this * x v) - (x this * z v))%float
          ((x this * y v) - (y this * x v))%float.

Definition length_squared (this : vec3) : double :=
  ((x this * x this) + (y this * y this) + (z this * z this))%float.

Definition length (this : vec3) : double := sqrt (length_squared this).

Definition unit_vector (this : vec3) : vec3 := op_div this (length this).

(** [operator*(const double t, const vec3 &v)] *)
Definition scalar_mul (t : double) (v : vec3) : vec3 :=
  vec3_of (t * x v)%float (t * y v)%float (t * z v)%float.

(** [operator*(const vec3 &v, const double t)] *)
Definition mul_scalar (v : vec3) (t : double) : vec3 := scalar_mul t v.

(** [operator<<]: the characters appended to the stream; [show] is the
    stream's formatting of a [double]. *)
Definition op_insert (show : double -> string) (out : string) (v : vec3) : string :=
  (out ++ "[" ++ show (x v) ++ ", " ++ show (y v) ++ ", " ++ show (z v) ++ "]")%string.

Definition point3 : Type := vec3.
Definition color : Type := vec3.

(** ** [class ray] *)

Record ray : Type := mk_ray { start : point3; direction : vec3 }.

(** [ray()]: both members are default-constructed. *)
Definition ray_default : ray := mk_ray vec3_zero vec3_zero.

(** [ray(_start, _dir)] *)
Definition ray_of (_start : point3) (_dir : vec3) : ray := mk_ray _start _dir.

Definition origin (this : ray) : point3 := start this.
Definition dir (this : ray) : vec3 := direction this.

(** [point3 at(const double t)] ([at] is a reserved word here). *)
Definition at_ (this : ray) (t : double) : point3 :=
  op_add (start this) (scalar_mul t (direction this)).

(** ** The calls of the public interface

    A call of a member function on a receiver: what it returns, and the
    receiver's state after it.  The [const] member functions, and the
    binary operators that only go through [const] accessors, leave it as it
    was. *)

Inductive value : Type :=
| v_void
| v_double (d : double)
| v_vec3 (v : vec3)
| v_ref (s : slot).

Inductive method : Type :=
| m_x | m_y | m_z
| m_newX (a : double) | m_newY (a : double) | m_newZ (a : double)
| m_neg
| m_index (i : Z)
| m_index_mut (i : Z)
| m_add_assign (v : vec3)
| m_mul_assign (t : double)
| m_div_assign (t : double)
| m_add (v : vec3) | m_sub (v : vec3) | m_mul (v : vec3)
| m_div (t : double)
| m_dot (v : vec3)
| m_cross (v : vec3)
| m_unit_vector
| m_length
| m_length_squared.

Definition vec3_call (m : method) (this : vec3) : outcome (value * vec3) :=
  match m with
  | m_x => Ok (v_double (x this), this)
  | m_y => Ok (v_double (y this), this)
  | m_z => Ok (v_double (z this), this)
  | m_newX a => Ok (v_void, newX this a)
  | m_newY a => Ok (v_void, newY this a)
  | m_newZ a => Ok (v_void, newZ this a)
  | m_neg => Ok (v_vec3 (op_neg this), this)
  | m_index i => d <- op_index this i ;; Ok (v_double d, this)
  | m_index_mut i => s <- op_index_mut this i ;; Ok (v_ref s, this)
  | m_add_assign v => let this' := op_add_assign this v in Ok (v_vec3 this', this')
  | m_mul_assign t => let this' := op_mul_assign this t in Ok (v_vec3 this', this')
  | m_div_assign t => let this' := op_div_assign this t in Ok (v_vec3 this', this')
  | m_add v => Ok (v_vec3 (op_add this v), this)
  | m_sub v => Ok (v_vec3 (op_sub this v), this)
  | m_mul v => Ok (v_vec3 (op_mul this v), this)
  | m_div t => Ok (v_vec3 (op_div this t), this)
  | m_dot v => Ok (v_double (dot this v), this)
  | m_cross v => Ok (v_vec3 (cross this v), this)
  | m_unit_vector => Ok (v_vec3 (unit_vector this), this)
  | m_length => Ok (v_double (length this), this)
  | m_length_squared => Ok (v_double (length_squared this), this)
  end.

Inductive ray_method : Type :=
| m_origin
| m_dir
| m_at (t : double).

Definition ray_call (m : ray_method) (this : ray) : outcome (value * ray) :=
  match m with
  | m_origin => Ok (v_vec3 (origin this), this)
  | m_dir => Ok (v_vec3 (dir this), this)
  | m_at t => Ok (v_vec3 (at_ this t), this)
  end.

(** ** Classes of values, and equality of numbers *)

(** Infinity or NaN. *)
Definition non_finite (d : double) : bool := is_infinity d || is_nan d.

Definition all_finite (v : vec3) : bool :=
  is_finite (x v) && is_finite (y v) && is_finite (z v).

Definition all_non_finite (v : vec3) : bool :=
  non_finite (x v) && non_finite (y v) && non_finite (z v).

(** Two doubles are the same number when they are the same value, or both
    are a zero: IEEE 754 has a zero of each sign, and [==] holds between
    them. *)
Definition same_number (a b : double) : Prop :=
  a = b \/ (is_zero a = true /\ is_zero b = true).

Definition same_vec (v w : vec3) : Prop :=
  same_number (x v) (x w) /\ same_number (y v) (y w) /\ same_number (z v) (z w).

(** The classes of [SpecFloat] values. *)
Definition SFis_nan (a : spec_float) : bool :=
  match a with S754_nan => true | _ => false end.

Definition SFis_zero (a : spec_float) : bool :=
  match a with S754_zero _ => true | _ => false end.

Definition SFis_infinity (a : spec_float) : bool :=
  match a with S754_infinity _ => true | _ => false end.

(** [1.0] *)
Definition SF64one : spec_float := S754_finite false 4503599627370496 (-52).

(** Not negative, or NaN. *)
Definition SFnonneg (a : spec_float) : bool :=
  match a with
  | S754_nan => true
  | S754_zero s | S754_infinity s | S754_finite s _ _ => negb s
  end.

(** Plus infinity, or NaN. *)
Definition SFinf_or_nan (a : spec_float) : bool :=
  match a with
  | S754_nan | S754_infinity false => true
  | _ => false
  end.

(** * Binary64 arithmetic

    What the proofs below need of IEEE 754, from the bit-level
    specification of the primitive operations. *)

(** ** Classes *)

Lemma is_nan_spec (f : double) : is_nan f = SFis_nan (Prim2SF f).
Proof.
  unfold is_nan. rewrite eqb_spec.
  destruct (Prim2SF f) as [s|s| |s m ex]; try (destruct s; reflexivity); try reflexivity.
  unfold SFeqb, SFcompare.
  rewrite Z.compare_refl, Pos.compare_cont_refl. destruct s; reflexivity.
Qed.

Lemma is_zero_spec (f : double) : is_zero f = SFis_zero (Prim2SF f).
Proof.
  unfold is_zero. rewrite eqb_spec.
  change (Prim2SF zero) with (S754_zero false).
  destruct (Prim2SF f) as [s|s| |s m ex]; try (destruct s; reflexivity); reflexivity.
Qed.

Lemma is_infinity_spec (f : double) : is_infinity f = SFis_infinity (Prim2SF f).
Proof.
  unfold is_infinity. rewrite eqb_spec, abs_spec.
  change (Prim2SF infinity) with (S754_infinity false).
  destruct (Prim2SF f) as [s|s| |s m ex]; try (destruct s; reflexivity); reflexivity.
Qed.

Lemma is_finite_spec (f : double) :
  is_finite f = negb (SFis_nan (Prim2SF f) || SFis_infinity (Prim2SF f)).
Proof. unfold is_finite. now rewrite is_nan_spec, is_infinity_spec. Qed.

Lemma non_finite_spec (f : double) :
  non_finite f = SFis_infinity (Prim2SF f) || SFis_nan (Prim2SF f).
Proof. unfold non_finite. now rewrite is_nan_spec, is_infinity_spec. Qed.

(** ** Signed zeros, infinities and NaN *)

Lemma SFmul_comm (a b : spec_float) : SF64mul a b = SF64mul b a.
Proof.
  destruct a as [s|s| |s m ex], b as [s'|s'| |s' m' ex']; cbn;
    rewrite ?(xorb_comm s s'); try reflexivity.
  now rewrite Pos.mul_comm, Z.add_comm.
Qed.

Lemma SFmul_zero_l (s : bool) (a : spec_float) :
  SFis_nan a || SFis_infinity a = false ->
  SFis_zero (SF64mul (S754_zero s) a) = true.
Proof. destruct a; cbn; congruence. Qed.

Lemma SFmul_zero_l_non_finite (s : bool) (a : spec_float) :
  SFis_nan a || SFis_infinity a = true ->
  SF64mul (S754_zero s) a = S754_nan.
Proof. destruct a; cbn; congruence. Qed.

Lemma SFmul_infinity_r (a : spec_float) (s : bool) :
  SFis_infinity (SF64mul a (S754_infinity s)) || SFis_nan (SF64mul a (S754_infinity s)) = true.
Proof. destruct a; reflexivity. Qed.

Lemma SFadd_zero_r (a : spec_float) (s : bool) :
  SF64add a (S754_zero s) = a \/
  (SFis_zero (SF64add a (S754_zero s)) = true /\ SFis_zero a = true).
Proof.
  destruct a as [s'|s'| |s' m ex]; cbn; auto.
  destruct s', s; cbn; auto.
Qed.

Lemma SFadd_pos_zero_r (a : spec_float) :
  a <> S754_zero true -> SF64add a (S754_zero false) = a.
Proof. destruct a as [[|]|s'| |s' m ex]; cbn; congruence. Qed.

Lemma SFadd_nan_r (a : spec_float) : SF64add a S754_nan = S754_nan.
Proof. destruct a; reflexivity. Qed.

Lemma cond_Zopp_negb (s : bool) (k : Z) :
  cond_Zopp s k + cond_Zopp (negb s) k = 0.
Proof. destruct s; cbn [cond_Zopp negb]; lia. Qed.

Lemma SFadd_opp_finite (a : spec_float) :
  SFis_nan a || SFis_infinity a = false ->
  SF64add a (SFopp a) = S754_zero false.
Proof.
  destruct a as [[|]|s| |s m ex]; cbn [SFis_nan SFis_infinity orb]; try congruence;
    try reflexivity.
  intros _. unfold SF64add, SFopp, SFadd.
  cbv zeta. rewrite cond_Zopp_negb. reflexivity.
Qed.

Lemma SFadd_opp_non_finite (a : spec_float) :
  SFis_nan a || SFis_infinity a = true ->
  SF64add a (SFopp a) = S754_nan.
Proof. destruct a as [s|[|]| |s m ex]; cbn; congruence. Qed.

Lemma SFdiv_zero_r (a : spec_float) (s : bool) :
  SFis_infinity (SF64div a (S754_zero s)) || SFis_nan (SF64div a (S754_zero s)) = true.
Proof. destruct a; reflexivity. Qed.

Lemma SFdiv_one_zero (s : bool) : SF64div SF64one (S754_zero s) = S754_infinity s.
Proof. destruct s; reflexivity. Qed.

(** Rounding does not look at the sign. *)
Lemma binary_round_aux_opp (s : bool) (m ex : Z) (l : location) :
  binary_round_aux prec emax (negb s) m ex l = SFopp (binary_round_aux prec emax s m ex l).
Proof.
  unfold binary_round_aux.
  destruct (shr_fexp prec emax m ex l) as [mrs' e'].
  destruct (shr_fexp prec emax _ e' loc_Exact) as [mrs'' e''].
  destruct (shr_m mrs''); try reflexivity.
  destruct (e'' <=? emax - prec); reflexivity.
Qed.


Lemma SFopp_involutive (a : spec_float) : SFopp (SFopp a) = a.
Proof. destruct a; cbn; now rewrite ?negb_involutive. Qed.



(** ** Multiplication by one *)

Lemma fexp_unfold (k : Z) : fexp prec emax k = Z.max (k - 53) (-1074).
Proof. reflexivity. Qed.

Lemma bounded_inv (m : positive) (ex : Z) :
  bounded prec emax m ex = true ->
  Z.max (Zpos (digits2_pos m) + ex - 53) (-1074) = ex /\ ex <= 971.
Proof.
  unfold bounded, canonical_mantissa. rewrite fexp_unfold.
  intros H. apply andb_prop in H as [Hc He].
  apply Z.eqb_eq in Hc. apply Z.leb_le in He.
  change (emax - prec) with 971 in He. split; assumption.
Qed.

(** A canonical mantissa needs no shift. *)
Lemma shr_fexp_canonical (m : positive) (ex : Z) :
  bounded prec emax m ex = true ->
  shr_fexp prec emax (Zpos m) ex loc_Exact =
  ({| shr_m := Zpos m; shr_r := false; shr_s := false |}, ex).
Proof.
  intros H. apply bounded_inv in H as [Hc _].
  unfold shr_fexp. rewrite fexp_unfold. cbn [Zdigits2].
  rewrite Hc, Z.sub_diag. reflexivity.
Qed.

(** The product of the mantissas of [1.0] and of a canonical float is
    shifted back by 52 places, and nothing is lost. *)
Lemma shr_fexp_one (m : positive) (ex : Z) :
  bounded prec emax m ex = true ->
  shr_fexp prec emax (Zpos (4503599627370496 * m)) (-52 + ex) loc_Exact =
  ({| shr_m := Zpos m; shr_r := false; shr_s := false |}, ex).
Proof.
  intros H. apply bounded_inv in H as [Hc _].
  unfold shr_fexp. rewrite fexp_unfold.
  cbn [Pos.mul Zdigits2 digits2_pos].
  rewrite !Pos2Z.inj_succ.
  replace (Z.max _ _ - _) with 52 by lia.
  cbn [shr_record_of_loc shr]. cbv [iter_pos shr_1 orb].
  f_equal. lia.
Qed.

Lemma SFmul_one_l (a : spec_float) :
  valid_binary a = true -> SF64mul SF64one a = a.
Proof.
  destruct a as [s|s| |s m ex]; intros Hv; try reflexivity.
  cbn [SpecFloat.valid_binary] in Hv.
  unfold SF64mul, SF64one, SFmul, binary_round_aux.
  rewrite (shr_fexp_one _ _ Hv).
  cbn [shr_m loc_of_shr_record round_nearest_even].
  rewrite (shr_fexp_canonical _ _ Hv). cbn [shr_m xorb].
  apply bounded_inv in Hv as [_ He].
  change (emax - prec) with 971.
  apply Z.leb_le in He. now rewrite He.
Qed.

(** ** The operations on [double] *)

Ltac to_spec :=
  apply Prim2SF_inj;
  repeat first [ rewrite add_spec | rewrite sub_spec | rewrite mul_spec
               | rewrite div_spec | rewrite opp_spec ].

Lemma Prim2SF_nan (d : double) : Prim2SF d = S754_nan -> d = nan.
Proof. intros H. now apply Prim2SF_inj. Qed.

Lemma double_mul_comm (a b : double) : (a * b)%float = (b * a)%float.
Proof. to_spec. apply SFmul_comm. Qed.

Lemma double_mul_one_l (d : double) : (1 * d)%float = d.
Proof. to_spec. apply SFmul_one_l, Prim2SF_valid. Qed.

Lemma double_mul_zero_l (d : double) :
  is_finite d = true -> is_zero (0 * d)%float = true.
Proof.
  rewrite is_finite_spec, is_zero_spec, mul_spec. intros H.
  apply SFmul_zero_l. now apply negb_true_iff.
Qed.

Lemma double_mul_zero_l_non_finite (d : double) :
  is_finite d = false -> (0 * d)%float = nan.
Proof.
  rewrite is_finite_spec. intros H. apply Prim2SF_nan. rewrite mul_spec.
  apply (SFmul_zero_l_non_finite false). now apply negb_false_iff.
Qed.

Lemma double_mul_infinity_r (a i : double) :
  is_infinity i = true -> non_finite (a * i)%float = true.
Proof.
  rewrite is_infinity_spec, non_finite_spec, mul_spec.
  destruct (Prim2SF i); try discriminate. intros _. apply SFmul_infinity_r.
Qed.

Lemma double_add_zero_r (a o : double) :
  is_zero o = true -> same_number (a + o)%float a.
Proof.
  unfold same_number. rewrite !is_zero_spec, add_spec.
  destruct (Prim2SF o) as [s| | |] eqn:Eo; try discriminate. intros _.
  destruct (SFadd_zero_r (Prim2SF a) s) as [H|H]; [left|now right].
  to_spec. now rewrite Eo.
Qed.

Lemma double_add_pos_zero_r (a : double) :
  a <> (-0)%float -> (a + 0)%float = a.
Proof.
  intros H. to_spec. apply SFadd_pos_zero_r.
  intros E. apply H. now apply Prim2SF_inj.
Qed.

Lemma double_add_nan_r (a : double) : (a + nan)%float = nan.
Proof. to_spec. apply SFadd_nan_r. Qed.

Lemma double_add_opp (a : double) :
  is_finite a = true -> (a + - a)%float = 0%float.
Proof.
  rewrite is_finite_spec. intros H. to_spec.
  apply SFadd_opp_finite. now apply negb_true_iff.
Qed.

Lemma double_add_opp_non_finite (a : double) :
  is_finite a = false -> (a + - a)%float = nan.
Proof.
  rewrite is_finite_spec. intros H. to_spec.
  apply SFadd_opp_non_finite. now apply negb_false_iff.
Qed.


Lemma double_div_zero_r (a o : double) :
  is_zero o = true -> non_finite (a / o)%float = true.
Proof.
  rewrite is_zero_spec, non_finite_spec, div_spec.
  destruct (Prim2SF o); try discriminate. intros _. apply SFdiv_zero_r.
Qed.

Lemma double_one_div_zero (o : double) :
  is_zero o = true -> is_infinity (1 / o)%float = true.
Proof.
  rewrite is_zero_spec, is_infinity_spec, div_spec.
  destruct (Prim2SF o) as [s| | |]; try discriminate. intros _.
  change (Prim2SF 1) with SF64one. now rewrite SFdiv_one_zero.
Qed.

Lemma same_number_refl (a : double) : same_number a a.
Proof. now left. Qed.




(** * The library on concrete values *)

Example add_123_456 : op_add (vec3_of 1 2 3) (vec3_of 4 5 6) = vec3_of 5 7 9.
Proof. reflexivity. Qed.

Example length_340 : length (vec3_of 3 4 0) = 5%float.
Proof. reflexivity. Qed.

Example at_2 : at_ (ray_of (vec3_of 0 0 0) (vec3_of 1 2 3)) 2 = vec3_of 2 4 6.
Proof. reflexivity. Qed.

Example index_5 : throws (op_index (vec3_of 1 2 3) 5) = true.
Proof. reflexivity. Qed.

(** The two accessors throw the same exception with two messages. *)
Example index_what_differs : index_what <> index_mut_what.
Proof. discriminate. Qed.

(** * Indexed access *)

Lemma in_012 (i : Z) : In i [0; 1; 2] <-> i = 0 \/ i = 1 \/ i = 2.
Proof. cbn [In]. intuition congruence. Qed.

Lemma subscript_in_range (i : Z) :
  0 <= i <= 2 -> exists s, subscript i = Ok s.
Proof.
  intros H. assert (i = 0 \/ i = 1 \/ i = 2) as [-> | [-> | ->]] by lia;
    eexists; reflexivity.
Qed.

Lemma subscript_throws (i : Z) : throws (subscript i) = false.
Proof. destruct i as [|[p|[p|p|]|]|p]; reflexivity. Qed.

Lemma op_index_throws (v : vec3) (i : Z) : throws (op_index v i) = (i >? 2).
Proof.
  unfold op_index. destruct (i >? 2) eqn:E; [reflexivity|].
  generalize (subscript_throws i). now destruct (subscript i).
Qed.

Lemma op_index_mut_throws (v : vec3) (i : Z) : throws (op_index_mut v i) = (i >? 2).
Proof.
  unfold op_index_mut. destruct (i >? 2) eqn:E; [reflexivity|].
  apply subscript_throws.
Qed.

(** C1: an index outside {0, 1, 2} makes the read and the write access
    throw [std::invalid_argument], the library's index error; both paths
    make the same test, and no other call of the interface throws. *)
Theorem index_out_of_range (v : vec3) (i : Z) (a : double) :
  is_uint i -> ~ In i [0; 1; 2] ->
  op_index v i = Throw (invalid_argument index_what) /\
  op_index_mut v i = Throw (invalid_argument index_mut_what) /\
  index_assign v i a = Throw (invalid_argument index_mut_what) /\
  (forall (this : vec3) (j : Z),
      throws (op_index this j) = throws (op_index_mut this j)) /\
  (forall (m : method) (this : vec3),
      throws (vec3_call m this) =
      match m with
      | m_index j | m_index_mut j => j >? 2
      | _ => false
      end) /\
  (forall (m : ray_method) (this : ray), throws (ray_call m this) = false).
Proof.
  intros [Hlo _] Hi. rewrite in_012 in Hi.
  assert (E : (i >? 2) = true) by (apply Z.gtb_lt; lia).
  split; [|split; [|split; [|repeat split]]];
    try (unfold index_assign, op_index, op_index_mut; now rewrite E).
  - intros this j. now rewrite op_index_throws, op_index_mut_throws.
  - intros m this. destruct m; try reflexivity; cbn [vec3_call];
      [ rewrite <- (op_index_throws this) | rewrite <- (op_index_mut_throws this) ];
      match goal with |- context [bind ?o _] => now destruct o end.
  - intros m this. now destruct m.
Qed.

Lemma index_out_of_range_5 :
  op_index (vec3_of 1 2 3) 5 = Throw (invalid_argument index_what) /\
  op_index_mut (vec3_of 1 2 3) 5 = Throw (invalid_argument index_mut_what).
Proof.
  destruct (index_out_of_range (vec3_of 1 2 3) 5 zero) as (H1 & H2 & _).
  - unfold is_uint, UINT_MAX. lia.
  - rewrite in_012. lia.
  - split; assumption.
Defined.

(** C10: the subscript that reaches the array is always inside it: no
    indexed access has an undefined outcome, and for an index in
    {0, 1, 2} nothing is thrown and the element designated is the one read
    or written. *)
Theorem index_in_storage (v : vec3) (i : Z) (a : double) :
  is_uint i ->
  defined (op_index v i) = true /\
  defined (op_index_mut v i) = true /\
  defined (index_assign v i a) = true /\
  (In i [0; 1; 2] ->
   exists s : slot,
     subscript i = Ok s /\
     op_index v i = Ok (load (e v) s) /\
     op_index_mut v i = Ok s /\
     index_assign v i a = Ok (mk_vec3 (store (e v) s a))).
Proof.
  intros [Hlo _]. unfold index_assign, op_index, op_index_mut.
  destruct (i >? 2) eqn:E.
  - repeat split. rewrite in_012. apply Z.gtb_lt in E. lia.
  - assert (H : 0 <= i <= 2) by (rewrite Z.gtb_ltb in E; apply Z.ltb_ge in E; lia).
    destruct (subscript_in_range i H) as [s Hs]. rewrite Hs. cbn [bind].
    repeat split. intros _. exists s. repeat split.
Qed.

Lemma index_in_storage_1 :
  defined (op_index (vec3_of 1 2 3) 1) = true /\
  op_index (vec3_of 1 2 3) 1 = Ok 2%float /\
  index_assign (vec3_of 1 2 3) 1 7 = Ok (vec3_of 1 7 3).
Proof.
  destruct (index_in_storage (vec3_of 1 2 3) 1 7) as (H1 & _ & _ & H).
  - unfold is_uint, UINT_MAX. lia.
  - destruct H as (s & Hs & Hr & _ & Hw).
    + rewrite in_012. lia.
    + injection Hs as <-. repeat split; assumption.
Defined.

(** C3: the read at index 0, 1 or 2 of [vec3(x, y, z)] gives x, y or z,
    and a write at an index in {0, 1, 2} followed by the read at that
    index gives the value written; the two other components are kept. *)
Theorem index_read_write (x0 y0 z0 a : double) (i : Z) :
  In i [0; 1; 2] ->
  op_index (vec3_of x0 y0 z0) 0 = Ok x0 /\
  op_index (vec3_of x0 y0 z0) 1 = Ok y0 /\
  op_index (vec3_of x0 y0 z0) 2 = Ok z0 /\
  exists v' : vec3,
    index_assign (vec3_of x0 y0 z0) i a = Ok v' /\
    op_index v' i = Ok a /\
    v' = vec3_of (if i =? 0 then a else x0)
                 (if i =? 1 then a else y0)
                 (if i =? 2 then a else z0).
Proof.
  rewrite in_012. intros [-> | [-> | ->]]; repeat split; eexists; repeat split.
Qed.

Lemma index_read_write_2 :
  op_index (vec3_of 1 2 3) 2 = Ok 3%float /\
  exists v' : vec3,
    index_assign (vec3_of 1 2 3) 2 9 = Ok v' /\
    op_index v' 2 = Ok 9%float /\ v' = vec3_of 1 2 9.
Proof.
  destruct (index_read_write 1 2 3 9 2) as (_ & _ & H & v' & Hw & Hr & Hv).
  - rewrite in_012. lia.
  - split; [exact H|]. exists v'. repeat split; assumption.
Defined.

(** * Arithmetic *)

Lemma nan_not_zero : ~ same_number nan zero.
Proof. intros [H|[H _]]; apply (f_equal is_nan) in H || idtac; discriminate H. Qed.

(** C4: [v * t] is [t * v]: the same three products. *)
Theorem scalar_mul_commutes (v : vec3) (t : double) :
  mul_scalar v t = scalar_mul t v /\
  scalar_mul t v = vec3_of (t * x v) (t * y v) (t * z v).
Proof. split; reflexivity. Qed.

(** C9: [v.dot(v)] and [v.length_squared()] are the same sum of the same
    products. *)
Theorem dot_self_length_squared (v : vec3) :
  dot v v = length_squared v /\
  vec3_call (m_dot v) v = vec3_call m_length_squared v.
Proof. split; reflexivity. Qed.

(** C5: [unit_vector] divides each component by [length], the square root
    of [length_squared]; for a vector of length zero nothing is thrown and
    every component of the result is an infinity or NaN. *)
Theorem unit_vector_spec (v : vec3) :
  unit_vector v = vec3_of (x v / length v) (y v / length v) (z v / length v) /\
  unit_vector v = op_div v (length v) /\
  length v = sqrt (length_squared v) /\
  vec3_call m_unit_vector v = Ok (v_vec3 (unit_vector v), v) /\
  (is_zero (length v) = true -> all_non_finite (unit_vector v) = true).
Proof.
  repeat split. intros H. unfold all_non_finite, unit_vector, op_div. cbn.
  now rewrite !double_div_zero_r.
Qed.

Lemma unit_vector_zero :
  is_zero (length vec3_zero) = true /\
  all_non_finite (unit_vector vec3_zero) = true /\
  unit_vector vec3_zero = vec3_of nan nan nan.
Proof.
  split; [reflexivity|]. split; [|reflexivity].
  apply (unit_vector_spec vec3_zero). reflexivity.
Defined.

(** C6: [v /= t] is [v *= 1 / t], with the same receiver afterwards and
    the same result; for [t] zero the reciprocal is an infinity, nothing
    is thrown, and every component becomes an infinity or NaN. *)
Theorem div_assign_reciprocal (v : vec3) (t : double) :
  op_div_assign v t = op_mul_assign v (1 / t) /\
  vec3_call (m_div_assign t) v = vec3_call (m_mul_assign (1 / t)) v /\
  vec3_call (m_div_assign t) v =
    Ok (v_vec3 (op_div_assign v t), op_div_assign v t) /\
  (is_zero t = true ->
   is_infinity (1 / t) = true /\ all_non_finite (op_div_assign v t) = true).
Proof.
  repeat split; [now apply double_one_div_zero|].
  unfold all_non_finite, op_div_assign, op_mul_assign. cbn.
  now rewrite !double_mul_infinity_r by now apply double_one_div_zero.
Qed.

Lemma div_assign_by_zero :
  is_zero 0 = true /\
  is_infinity (1 / 0) = true /\
  op_div_assign (vec3_of 1 0 (-2)) 0 = vec3_of infinity nan neg_infinity.
Proof.
  split; [reflexivity|]. split; [|reflexivity].
  apply (div_assign_reciprocal (vec3_of 1 0 (-2)) 0). reflexivity.
Defined.



(** Where a component of the product is zero the two sides of C8 can be
    zeros of opposite signs. *)
Lemma cross_anticommutative_signed_zero :
  cross (vec3_of 1 0 0) (vec3_of 0 1 0) = vec3_of 0 0 1 /\
  op_neg (cross (vec3_of 0 1 0) (vec3_of 1 0 0)) = vec3_of (-0) (-0) 1.
Proof. split; reflexivity. Qed.

(** ** Addition and negation *)

(** C7, as the code has it: a component of [v + (-v)] is [+0.0] where that
    component of [v] is finite and NaN where it is an infinity or NaN;
    [v + vec3()] is [v], number for number; [-v] is a new vector of the
    negated components, and the call leaves [v] as it was. *)
Theorem add_identity_inverse (v : vec3) :
  (forall s : slot,
      load (e (op_add v (op_neg v))) s =
      if is_finite (load (e v) s) then 0%float else nan) /\
  (all_finite v = true -> op_add v (op_neg v) = vec3_zero) /\
  same_vec (op_add v vec3_zero) v /\
  op_neg v = vec3_of (- x v) (- y v) (- z v) /\
  vec3_call m_neg v = Ok (v_vec3 (op_neg v), v).
Proof.
  assert (H : forall a : double,
             (a + - a)%float = if is_finite a then 0%float else nan).
  { intros a. destruct (is_finite a) eqn:E.
    - now apply double_add_opp.
    - now apply double_add_opp_non_finite. }
  split; [|split; [|split; [|split; reflexivity]]].
  - intros []; apply H.
  - unfold all_finite. intros F.
    apply andb_prop in F as [F Fz]. apply andb_prop in F as [Fx Fy].
    unfold op_add, op_neg, vec3_of, vec3_zero, x, y, z in *. cbn.
    rewrite !H, Fx, Fy, Fz. reflexivity.
  - repeat split; cbn; now apply double_add_zero_r.
Qed.

Lemma add_identity_inverse_123 :
  all_finite (vec3_of 1 2 3) = true /\
  op_add (vec3_of 1 2 3) (op_neg (vec3_of 1 2 3)) = vec3_zero.
Proof.
  split; [reflexivity|].
  apply (add_identity_inverse (vec3_of 1 2 3)). reflexivity.
Defined.

(** C7 as stated fails: infinity plus minus infinity is NaN. *)
Lemma add_neg_infinity :
  op_add (vec3_of infinity 0 0) (op_neg (vec3_of infinity 0 0)) = vec3_of nan 0 0 /\
  ~ same_vec (op_add (vec3_of infinity 0 0) (op_neg (vec3_of infinity 0 0)))
             vec3_zero.
Proof.
  split; [reflexivity|]. intros [H _]. exact (nan_not_zero H).
Qed.

(** [v + vec3()] is [v] bit for bit, a component [-0.0] apart. *)
Lemma add_zero_exact (v : vec3) (s : slot) :
  load (e v) s <> (-0)%float ->
  load (e (op_add v vec3_zero)) s = load (e v) s.
Proof. destruct s; cbn; apply double_add_pos_zero_r. Qed.

(** ** Points of a ray *)

(** C2, as the code has it: [at(t)] is [origin + t * direction]; [at(1)]
    is [origin + direction] for every ray; a component of [at(0)] is that
    of the origin where the direction's component is finite, and NaN where
    it is an infinity or NaN. *)
Theorem at_spec (r : ray) (t : double) :
  at_ r t = op_add (origin r) (scalar_mul t (dir r)) /\
  at_ r t = vec3_of (x (origin r) + t * x (dir r))
                    (y (origin r) + t * y (dir r))
                    (z (origin r) + t * z (dir r)) /\
  ray_call (m_at t) r = Ok (v_vec3 (at_ r t), r) /\
  at_ r 1 = op_add (origin r) (dir r) /\
  (forall s : slot,
      if is_finite (load (e (dir r)) s)
      then same_number (load (e (at_ r 0)) s) (load (e (origin r)) s)
      else load (e (at_ r 0)) s = nan) /\
  (all_finite (dir r) = true -> same_vec (at_ r 0) (origin r)).
Proof.
  assert (H : forall o d : double,
             if is_finite d then same_number (o + 0 * d)%float o
             else (o + 0 * d)%float = nan).
  { intros o d. destruct (is_finite d) eqn:E.
    - now apply double_add_zero_r, double_mul_zero_l.
    - rewrite (double_mul_zero_l_non_finite d E). apply double_add_nan_r. }
  split; [|split; [|split; [|split; [|split]]]]; try reflexivity.
  - unfold at_, op_add, scalar_mul. cbn.
    now rewrite !double_mul_one_l.
  - intros []; apply H.
  - unfold all_finite. intros F.
    apply andb_prop in F as [F Fz]. apply andb_prop in F as [Fx Fy].
    repeat split.
    + generalize (H (x (origin r)) (x (dir r))). now rewrite Fx.
    + generalize (H (y (origin r)) (y (dir r))). now rewrite Fy.
    + generalize (H (z (origin r)) (z (dir r))). now rewrite Fz.
Qed.

Lemma at_spec_123 :
  all_finite (dir (ray_of vec3_zero (vec3_of 1 2 3))) = true /\
  same_vec (at_ (ray_of vec3_zero (vec3_of 1 2 3)) 0)
           (origin (ray_of vec3_zero (vec3_of 1 2 3))) /\
  at_ (ray_of vec3_zero (vec3_of 1 2 3)) 2 = vec3_of 2 4 6.
Proof.
  split; [reflexivity|]. split; [|reflexivity].
  apply (at_spec (ray_of vec3_zero (vec3_of 1 2 3)) 2). reflexivity.
Defined.

(** C2 as stated fails: zero times infinity is NaN. *)
Lemma at_zero_infinite_direction :
  at_ (ray_of vec3_zero (vec3_of infinity 0 0)) 0 = vec3_of nan 0 0 /\
  ~ same_vec (at_ (ray_of vec3_zero (vec3_of infinity 0 0)) 0)
             (origin (ray_of vec3_zero (vec3_of infinity 0 0))).
Proof.
  split; [reflexivity|]. intros [H _]. exact (nan_not_zero H).
Qed.

(** * More of binary64 arithmetic *)

(** ** Commutativity, and subtraction as addition *)

Lemma SFadd_comm (a b : spec_float) : SF64add a b = SF64add b a.
Proof.
  destruct a as [s|s| |s m ex], b as [s'|s'| |s' m' ex']; try reflexivity;
    try (destruct s, s'; reflexivity).
  unfold SF64add, SFadd. cbv zeta.
  now rewrite (Z.min_comm ex' ex), Z.add_comm.
Qed.

Lemma SFsub_add_opp (a b : spec_float) : SF64sub a b = SF64add a (SFopp b).
Proof.
  destruct a as [s|s| |s m ex], b as [s'|s'| |s' m' ex']; try reflexivity;
    destruct s, s'; reflexivity.
Qed.

Lemma SFsub_diag (a : spec_float) :
  SF64sub a a = if SFis_nan a || SFis_infinity a then S754_nan else S754_zero false.
Proof.
  destruct a as [[|]|[|]| |s m ex]; try reflexivity.
  unfold SF64sub, SFsub. cbv zeta. now rewrite Z.sub_diag.
Qed.

(** ** Signs *)

Lemma SFmul_opp_l (a b : spec_float) : SF64mul (SFopp a) b = SFopp (SF64mul a b).
Proof.
  destruct a as [s|s| |s m ex], b as [s'|s'| |s' m' ex']; try reflexivity;
    cbn; rewrite <- ?negb_xorb_l; try reflexivity.
  apply binary_round_aux_opp.
Qed.

Lemma SFmul_opp_opp (a b : spec_float) : SF64mul (SFopp a) (SFopp b) = SF64mul a b.
Proof.
  rewrite SFmul_opp_l, (SFmul_comm a), SFmul_opp_l, SFopp_involutive.
  apply SFmul_comm.
Qed.

Lemma SFdiv_opp_l (a b : spec_float) : SF64div (SFopp a) b = SFopp (SF64div a b).
Proof.
  destruct a as [s|s| |s m ex], b as [s'|s'| |s' m' ex']; try reflexivity;
    cbn; rewrite <- ?negb_xorb_l; try reflexivity.
  destruct (SFdiv_core_binary prec emax (Zpos m) ex (Zpos m') ex') as [[mz ez] lz].
  apply binary_round_aux_opp.
Qed.

Lemma binary_round_aux_nonneg (m ex : Z) (l : location) :
  SFnonneg (binary_round_aux prec emax false m ex l) = true.
Proof.
  unfold binary_round_aux.
  destruct (shr_fexp prec emax m ex l) as [mrs' e'].
  destruct (shr_fexp prec emax _ e' loc_Exact) as [mrs'' e''].
  destruct (shr_m mrs''); try reflexivity.
  destruct (e'' <=? emax - prec); reflexivity.
Qed.

Lemma SFmul_diag_nonneg (a : spec_float) : SFnonneg (SF64mul a a) = true.
Proof.
  destruct a as [[|]|[|]| |s m ex]; try reflexivity.
  cbn. rewrite xorb_nilpotent. apply binary_round_aux_nonneg.
Qed.

Lemma SFadd_nonneg (a b : spec_float) :
  SFnonneg a = true -> SFnonneg b = true -> SFnonneg (SF64add a b) = true.
Proof.
  destruct a as [[|]|[|]| |[|] m ex], b as [[|]|[|]| |[|] m' ex'];
    try discriminate; try reflexivity.
  intros _ _. unfold SF64add, SFadd. cbv zeta.
  cbn [cond_Zopp Z.add binary_normalize]. unfold binary_round.
  destruct (shl_align _ _ _) as [mz ez]. apply binary_round_aux_nonneg.
Qed.

Lemma SFsqrt_nonneg (a : spec_float) :
  SFnonneg a = true -> SFnonneg (SF64sqrt a) = true.
Proof.
  destruct a as [[|]|[|]| |[|] m ex]; try discriminate; try reflexivity.
  intros _. unfold SF64sqrt, SFsqrt.
  destruct (SFsqrt_core_binary prec emax (Zpos m) ex) as [[mz ez] lz].
  apply binary_round_aux_nonneg.
Qed.

Lemma SFltb_nonneg_zero (a : spec_float) :
  SFnonneg a = true -> SFltb a (S754_zero false) = false.
Proof. destruct a as [[|]|[|]| |[|] m ex]; try discriminate; reflexivity. Qed.

(** ** An infinite term *)

Lemma SFmul_diag_infinity (a : spec_float) :
  SFis_infinity a = true -> SF64mul a a = S754_infinity false.
Proof. destruct a as [s|[|]| |s m ex]; try discriminate; reflexivity. Qed.

Lemma SFadd_inf_or_nan_l (a b : spec_float) :
  SFinf_or_nan a = true -> SFnonneg b = true -> SFinf_or_nan (SF64add a b) = true.
Proof.
  destruct a as [s|[|]| |s m ex], b as [[|]|[|]| |[|] m' ex'];
    try discriminate; reflexivity.
Qed.

Lemma SFsqrt_inf_or_nan (a : spec_float) :
  SFinf_or_nan a = true -> SFinf_or_nan (SF64sqrt a) = true.
Proof. destruct a as [s|[|]| |s m ex]; try discriminate; reflexivity. Qed.

Lemma SFdiv_infinity_inf_or_nan (a b : spec_float) :
  SFis_infinity a = true -> SFinf_or_nan b = true -> SF64div a b = S754_nan.
Proof.
  destruct a as [s|s| |s m ex], b as [s'|[|]| |s' m' ex']; try discriminate;
    reflexivity.
Qed.

Lemma SFmul_neg_one_l (a : spec_float) :
  valid_binary a = true -> SF64mul (SFopp SF64one) a = SFopp a.
Proof. intros H. now rewrite SFmul_opp_l, SFmul_one_l. Qed.

(** ** More of the operations on [double] *)

Lemma double_add_comm (a b : double) : (a + b)%float = (b + a)%float.
Proof. to_spec. apply SFadd_comm. Qed.

Lemma double_sub_add_opp (a b : double) : (a - b)%float = (a + - b)%float.
Proof. to_spec. apply SFsub_add_opp. Qed.

Lemma double_sub_diag (a : double) :
  (a - a)%float = if is_finite a then 0%float else nan.
Proof.
  rewrite is_finite_spec. apply Prim2SF_inj. rewrite sub_spec, SFsub_diag.
  now destruct (SFis_nan (Prim2SF a) || SFis_infinity (Prim2SF a)).
Qed.

Lemma double_opp_involutive (a : double) : (- - a)%float = a.
Proof. to_spec. apply SFopp_involutive. Qed.


Lemma double_mul_neg_one_l (a : double) : (-1 * a)%float = (- a)%float.
Proof. to_spec. apply SFmul_neg_one_l, Prim2SF_valid. Qed.

Lemma double_mul_opp_opp (a b : double) : (- a * - b)%float = (a * b)%float.
Proof. to_spec. apply SFmul_opp_opp. Qed.

Lemma double_div_opp_l (a b : double) : (- a / b)%float = (- (a / b))%float.
Proof. to_spec. apply SFdiv_opp_l. Qed.

Lemma length_squared_nonneg (v : vec3) :
  SFnonneg (Prim2SF (length_squared v)) = true.
Proof.
  unfold length_squared. rewrite !add_spec, !mul_spec.
  repeat apply SFadd_nonneg; apply SFmul_diag_nonneg.
Qed.

Lemma length_squared_neg (v : vec3) : length_squared (op_neg v) = length_squared v.
Proof. unfold length_squared, op_neg. cbn. now rewrite !double_mul_opp_opp. Qed.

(** The sum of the squares is an infinity or NaN as soon as one component
    is an infinity. *)
Lemma length_squared_infinite (v : vec3) (s : slot) :
  is_infinity (load (e v) s) = true ->
  SFinf_or_nan (Prim2SF (length_squared v)) = true.
Proof.
  rewrite is_infinity_spec. intros H.
  unfold length_squared. rewrite !add_spec, !mul_spec.
  destruct s; cbn [load] in H; fold (x v) in H; fold (y v) in H; fold (z v) in H.
  - do 2 (apply SFadd_inf_or_nan_l; [|apply SFmul_diag_nonneg]).
    now rewrite SFmul_diag_infinity.
  - apply SFadd_inf_or_nan_l; [|apply SFmul_diag_nonneg].
    rewrite SFadd_comm. apply SFadd_inf_or_nan_l; [|apply SFmul_diag_nonneg].
    now rewrite SFmul_diag_infinity.
  - rewrite SFadd_comm. apply SFadd_inf_or_nan_l.
    + now rewrite SFmul_diag_infinity.
    + apply SFadd_nonneg; apply SFmul_diag_nonneg.
Qed.

Lemma double_mul_zero_r (t d : double) :
  is_zero d = true ->
  if is_finite t then is_zero (t * d)%float = true else (t * d)%float = nan.
Proof.
  intros H. rewrite double_mul_comm. rewrite is_zero_spec in H.
  destruct (is_finite t) eqn:E; rewrite is_finite_spec in E.
  - rewrite is_zero_spec, mul_spec.
    destruct (Prim2SF d) as [s| | |]; try discriminate.
    apply SFmul_zero_l. now apply negb_true_iff.
  - apply Prim2SF_nan. rewrite mul_spec.
    destruct (Prim2SF d) as [s| | |]; try discriminate.
    apply SFmul_zero_l_non_finite. now apply negb_false_iff.
Qed.

Lemma double_mul_opp_l (a b : double) : (- a * b)%float = (- (a * b))%float.
Proof. to_spec. apply SFmul_opp_l. Qed.

(** * Further properties of [vec3] *)

(** ** Symmetries *)

(** X1: the dot product does not depend on the order of its operands:
    the two results are the same double, all NaNs counted as one value. *)
Theorem dot_symmetric (v w : vec3) : dot v w = dot w v.
Proof.
  unfold dot.
  now rewrite (double_mul_comm (x v)), (double_mul_comm (y v)), (double_mul_comm (z v)).
Qed.

(** X2: the sum does not depend on the order of its operands (the two
    results are the same doubles, all NaNs counted as one value), and
    [v += w] leaves in [v] the vector [v + w]. *)
Theorem add_commutes (v w : vec3) :
  op_add v w = op_add w v /\ op_add_assign v w = op_add v w.
Proof.
  split; [|reflexivity]. unfold op_add.
  now rewrite (double_add_comm (x v)), (double_add_comm (y v)), (double_add_comm (z v)).
Qed.

(** X3: the elementwise product does not depend on the order of its
    operands: the two results are the same doubles, all NaNs counted as
    one value. *)
Theorem hadamard_commutes (v w : vec3) : op_mul v w = op_mul w v.
Proof.
  unfold op_mul.
  now rewrite (double_mul_comm (x v)), (double_mul_comm (y v)), (double_mul_comm (z v)).
Qed.

(** X9: [v *= t] leaves in [v] the vector that [v * t] and [t * v]
    return: the same doubles, all NaNs counted as one value. *)
Theorem mul_assign_scalar_mul (v : vec3) (t : double) :
  op_mul_assign v t = mul_scalar v t /\ op_mul_assign v t = scalar_mul t v.
Proof.
  assert (H : op_mul_assign v t = scalar_mul t v).
  { unfold op_mul_assign, scalar_mul, vec3_of, x, y, z.
    now rewrite (double_mul_comm t), (double_mul_comm t), (double_mul_comm t). }
  split; exact H.
Qed.

(** ** Subtraction *)

(** X4: [v - w] is [v + (-w)]: the same doubles, all NaNs counted as one
    value. *)
Theorem sub_add_neg (v w : vec3) : op_sub v w = op_add v (op_neg w).
Proof. unfold op_sub, op_add, op_neg. cbn. now rewrite !double_sub_add_opp. Qed.


(** X6: a component of [v - v] is [+0.0] where that component of [v] is
    finite, and NaN where it is an infinity or NaN. *)
Theorem sub_self (v : vec3) (s : slot) :
  load (e (op_sub v v)) s = if is_finite (load (e v) s) then 0%float else nan.
Proof. destruct s; apply double_sub_diag. Qed.

(** ** Negation and scaling *)

(** X7: negating twice gives the vector back, bit for bit. *)
Theorem neg_involutive (v : vec3) : op_neg (op_neg v) = v.
Proof.
  destruct v as [[p q r]]. unfold op_neg, vec3_of. cbn.
  now rewrite !double_opp_involutive.
Qed.


(** X10: a component of [0.0 * v] is a zero where that component of [v]
    is finite, and NaN where it is an infinity or NaN. *)
Theorem scale_by_zero (v : vec3) (s : slot) :
  if is_finite (load (e v) s)
  then is_zero (load (e (scalar_mul 0 v)) s) = true
  else load (e (scalar_mul 0 v)) s = nan.
Proof.
  assert (H : forall d : double,
             if is_finite d then is_zero (0 * d)%float = true else (0 * d)%float = nan).
  { intros d. destruct (is_finite d) eqn:E.
    - now apply double_mul_zero_l.
    - now apply double_mul_zero_l_non_finite. }
  destruct s; apply H.
Qed.

(** X11: scaling by [-1.0] is negation: the same doubles, all NaNs
    counted as one value. *)
Theorem scale_by_minus_one (v : vec3) : scalar_mul (-1) v = op_neg v.
Proof. unfold scalar_mul, op_neg. cbn. now rewrite !double_mul_neg_one_l. Qed.

(** ** Lengths *)

(** X12: negating both operands keeps the dot product, and negating a
    vector keeps its squared length and its length: the same double, all
    NaNs counted as one value. *)
Theorem neg_keeps_length (v w : vec3) :
  dot (op_neg v) (op_neg w) = dot v w /\
  length_squared (op_neg v) = length_squared v /\
  length (op_neg v) = length v.
Proof.
  split; [|split].
  - unfold dot, op_neg. cbn. now rewrite !double_mul_opp_opp.
  - apply length_squared_neg.
  - unfold length. now rewrite length_squared_neg.
Qed.

(** X13: neither [length_squared] nor [length] is ever less than zero. *)
Theorem length_not_negative (v : vec3) :
  (length_squared v <? 0)%float = false /\ (length v <? 0)%float = false.
Proof.
  split; rewrite ltb_spec; apply SFltb_nonneg_zero.
  - apply length_squared_nonneg.
  - unfold length. rewrite sqrt_spec. apply SFsqrt_nonneg, length_squared_nonneg.
Qed.

(** X14: a component of [v.cross(v)] is [+0.0] where the product of the
    two other components is finite, and NaN where that product overflows
    or is NaN. *)
Theorem cross_self (v : vec3) :
  cross v v =
  vec3_of (if is_finite (y v * z v) then 0 else nan)
          (if is_finite (z v * x v) then 0 else nan)
          (if is_finite (x v * y v) then 0 else nan).
Proof.
  unfold cross.
  rewrite (double_mul_comm (z v) (y v)), (double_mul_comm (x v) (z v)),
    (double_mul_comm (y v) (x v)).
  now rewrite !double_sub_diag.
Qed.

(** A finite vector whose products overflow: the cross product with itself
    is not the zero vector. *)
Example cross_self_overflow :
  all_finite (vec3_of 0x1p+600 0x1p+600 0x1p+600) = true /\
  cross (vec3_of 0x1p+600 0x1p+600 0x1p+600) (vec3_of 0x1p+600 0x1p+600 0x1p+600)
  = vec3_of nan nan nan.
Proof. split; reflexivity. Qed.

(** ** Normalisation *)

(** X18: the unit vector of [-v] is the negated unit vector of [v]: the
    same doubles, all NaNs counted as one value. *)
Theorem unit_vector_neg (v : vec3) : unit_vector (op_neg v) = op_neg (unit_vector v).
Proof.
  unfold unit_vector, length. rewrite length_squared_neg.
  unfold op_div, op_neg. cbn. now rewrite !double_div_opp_l.
Qed.

(** X17: a setter writes its component and keeps the two others, as the
    assignment through [operator[]] at the matching index does, and the
    read at that index is the accessor. *)
Theorem setters_and_index (v : vec3) (a : double) :
  newX v a = vec3_of a (y v) (z v) /\
  newY v a = vec3_of (x v) a (z v) /\
  newZ v a = vec3_of (x v) (y v) a /\
  index_assign v 0 a = Ok (newX v a) /\
  index_assign v 1 a = Ok (newY v a) /\
  index_assign v 2 a = Ok (newZ v a) /\
  op_index v 0 = Ok (x v) /\ op_index v 1 = Ok (y v) /\ op_index v 2 = Ok (z v).
Proof. repeat split. Qed.

(** X16: [v /= t] and [v / t] are two computations: the first multiplies
    by the rounded reciprocal, and the results can differ in the last
    bit. *)
Theorem div_assign_is_not_div :
  exists (v : vec3) (t : double),
    all_finite v = true /\ is_finite t = true /\ is_zero t = false /\
    op_div_assign v t <> op_div v t.
Proof.
  exists (vec3_of 3 0 0), 10%float. repeat split.
  intros H. apply (f_equal x) in H.
  apply (f_equal (fun d => (d =? 0x1.3333333333333p-2)%float)) in H.
  vm_compute in H. discriminate H.
Qed.

(** X15: on a ray whose direction has a zero component, that component
    of [at(t)] is the origin's for every finite [t], and NaN for [t] an
    infinity or NaN. *)
Theorem at_zero_direction (r : ray) (t : double) (s : slot) :
  is_zero (load (e (dir r)) s) = true ->
  if is_finite t
  then same_number (load (e (at_ r t)) s) (load (e (origin r)) s)
  else load (e (at_ r t)) s = nan.
Proof.
  assert (H : forall o d : double,
             is_zero d = true ->
             if is_finite t then same_number (o + t * d)%float o
             else (o + t * d)%float = nan).
  { intros o d Hd. generalize (double_mul_zero_r t d Hd).
    destruct (is_finite t); intros H.
    - now apply double_add_zero_r.
    - rewrite H. apply double_add_nan_r. }
  destruct s; apply H.
Qed.

Lemma at_default_ray :
  is_zero (load (e (dir ray_default)) slot0) = true /\
  same_number (load (e (at_ ray_default 5)) slot0) (load (e (origin ray_default)) slot0).
Proof.
  split; [reflexivity|].
  apply (at_zero_direction ray_default 5 slot0). reflexivity.
Defined.

(** X19: a component of [v] that is an infinity becomes NaN in
    [unit_vector(v)]. *)
Theorem unit_vector_infinite (v : vec3) (s : slot) :
  is_infinity (load (e v) s) = true ->
  load (e (unit_vector v)) s = nan.
Proof.
  intros H.
  assert (L : SFinf_or_nan (Prim2SF (length v)) = true).
  { unfold length. rewrite sqrt_spec.
    apply SFsqrt_inf_or_nan, (length_squared_infinite v s H). }
  rewrite is_infinity_spec in H.
  destruct s; cbn [load] in H |- *; apply Prim2SF_nan; cbn;
    rewrite div_spec; now apply SFdiv_infinity_inf_or_nan.
Qed.

Lemma unit_vector_infinite_x :
  is_infinity (load (e (vec3_of infinity 3 4)) slot0) = true /\
  load (e (unit_vector (vec3_of infinity 3 4))) slot0 = nan.
Proof.
  split; [reflexivity|].
  apply (unit_vector_infinite (vec3_of infinity 3 4) slot0). reflexivity.
Defined.

(** X20: [v / t] for [t] a zero of either sign throws nothing: every
    component of the result is an infinity or NaN. *)
Theorem div_by_zero (v : vec3) (t : double) :
  is_zero t = true ->
  all_non_finite (op_div v t) = true /\
  vec3_call (m_div t) v = Ok (v_vec3 (op_div v t), v).
Proof.
  intros H. split; [|reflexivity].
  unfold all_non_finite, op_div. cbn. now rewrite !double_div_zero_r.
Qed.

Lemma div_by_neg_zero :
  is_zero (-0) = true /\
  all_non_finite (op_div (vec3_of 1 0 (-2)) (-0)) = true.
Proof.
  split; [reflexivity|].
  apply (div_by_zero (vec3_of 1 0 (-2)) (-0)). reflexivity.
Defined.

(** X21: the point at [-t] lies behind the origin: [at(-t)] is
    [origin - t * direction], the same doubles, all NaNs counted as one
    value. *)
Theorem at_opp (r : ray) (t : double) :
  at_ r (- t) = op_sub (origin r) (scalar_mul t (dir r)).
Proof.
  unfold at_, op_sub, op_add, scalar_mul, origin, dir. cbn.
  now rewrite !double_mul_opp_l, !double_sub_add_opp.
Qed.
